(** * Synthetic marketing-mix data generator: [src/data_generation.py]

    A shallow embedding of [generate_mmm_data], of its two local
    transforms [apply_adstock] and [apply_saturation], and of the script
    block that saves the generated table.

    Modelling conventions.
    - A one-dimensional NumPy [float64] array is a [list R]; arithmetic is
      the arithmetic of the real numbers (rounding, overflow and NaN of the
      binary64 format are not modelled). The properties stated over it are
      those that rounding keeps: lengths, recurrences, signs, order and
      cell-wise formulas. Where the last bit matters, the saturation
      transform is given a second time on binary64 values ([b64]).
    - NumPy's process-wide legacy random generator is an explicit state that
      every call threads through; Python exceptions are the left summand of
      a result.
    - The behaviour of the library calls the source makes ([np.zeros_like],
      [np.clip], slicing, [pd.date_range], [pd.DataFrame] ...) is written
      out next to the function that uses it. *)

From Stdlib Require Import Reals Lra Lia ZArith List Floats.
From stdpp Require Import list gmap strings.
Import ListNotations.
Open Scope R_scope.

(** ** Python values, exceptions and the random source *)

(** The argument [weeks] as the caller may pass it: an [int] or a [float]. *)
Inductive py_num : Type :=
  | PyInt (n : Z)
  | PyFloat (x : R).

Inductive exn : Type :=
  | ValueError
  | TypeError.

(** [weeks] as an index, once a library call has accepted it as a size. *)
Definition py_index (weeks : py_num) : nat :=
  match weeks with
  | PyInt n => Z.to_nat n
  | PyFloat _ => 0%nat
  end.

(** What the source takes from its libraries and does not define itself:
    the state of NumPy's legacy generator, the state [np.random.seed]
    installs, one standard gamma variate of a given shape, one standard
    normal variate, and what [pd.date_range] answers to a [periods] that is
    not a nonnegative [int] (an error or an index, by pandas version). *)
Class Runtime : Type := {
  rng : Type;
  seed_state : Z -> rng;
  standard_gamma : R -> rng -> R * rng;
  standard_normal : rng -> R * rng;
  date_range_other : py_num -> exn + list Z
}.

(** The process-wide generator, with a ghost count of the variates drawn
    from it so far. *)
Record world `{Runtime} : Type := World {
  mt : rng;
  drawn : nat
}.

(** Computations that read and update the generator and may raise. *)
Definition M `{Runtime} (A : Type) : Type := world -> (exn + A) * world.

Definition ret `{Runtime} {A} (a : A) : M A := fun w => (inr a, w).

Definition raise `{Runtime} {A} (e : exn) : M A := fun w => (inl e, w).

Definition bind `{Runtime} {A B} (m : M A) (k : A -> M B) : M B :=
  fun w =>
    match m w with
    | (inl e, w') => (inl e, w')
    | (inr a, w') => k a w'
    end.

Definition lift `{Runtime} {A} (r : exn + A) : M A :=
  match r with
  | inl e => raise e
  | inr a => ret a
  end.

Notation "x <- m ;; k" := (bind m (fun x => k))
  (at level 100, m at next level, right associativity).
Notation "m ;;; k" := (bind m (fun _ => k))
  (at level 100, right associativity).

(** ** NumPy arrays *)

Abbreviation ndarray := (list R) (only parsing).

(** [a[t]] for an index that is in range (every read of the source is). *)
Definition getitem (a : ndarray) (t : nat) : R := nth t a 0.

(** [range(lo, hi)] *)
Definition py_range (lo hi : nat) : list nat := seq lo (hi - lo).

Module np.

(** [np.pi] *)
Definition pi : R := PI.

(** [np.zeros_like(a)] *)
Definition zeros_like (a : ndarray) : ndarray := replicate (length a) 0.

(** [np.arange(n)], read as floats by the arithmetic that follows *)
Definition arange (n : nat) : ndarray := map INR (seq 0 n).

(** array-with-scalar arithmetic (the scalar is broadcast) *)
Definition adds (a : ndarray) (k : R) : ndarray := map (fun x => x + k) a.
Definition sadd (k : R) (a : ndarray) : ndarray := map (fun x => k + x) a.
Definition muls (a : ndarray) (k : R) : ndarray := map (fun x => x * k) a.
Definition smul (k : R) (a : ndarray) : ndarray := map (fun x => k * x) a.
Definition divs (a : ndarray) (k : R) : ndarray := map (fun x => x / k) a.

(** [a + b], [a * b], [a / b] on arrays of one shape (element-wise) *)
Definition add (a b : ndarray) : ndarray := zip_with Rplus a b.
Definition mul (a b : ndarray) : ndarray := zip_with Rmult a b.
Definition div (a b : ndarray) : ndarray := zip_with Rdiv a b.

(** [np.sin(a)] *)
Definition sin (a : ndarray) : ndarray := map Rtrigo_def.sin a.

(** [np.clip(a, lo, None)]: values below [lo] become [lo] *)
Definition clip (a : ndarray) (lo : R) : ndarray := map (Rmax lo) a.

(** [a[lo:hi] += v] for [0 <= lo <= hi]: a slice stops at the end of the
    array, so the part of the window beyond it is dropped silently. *)
Definition slice_iadd (a : ndarray) (lo hi : nat) (v : R) : ndarray :=
  take lo a ++ map (fun x => x + v) (take (hi - lo) (drop lo a)) ++ drop hi a.

Module random.
Section Random.
Context `{Runtime}.

(** [np.random.seed(n)]: replaces the generator's state. *)
Definition seed (n : Z) : M unit :=
  fun w => (inr tt, World _ (seed_state n) (drawn w)).

(** [n] successive variates of [one], first drawn first. *)
Fixpoint draws (one : rng -> R * rng) (n : nat) (w : world)
    : ndarray * world :=
  match n with
  | O => ([], w)
  | S n' =>
      let (x, s') := one (mt w) in
      let (xs, w') := draws one n' (World _ s' (S (drawn w))) in
      (x :: xs, w')
  end.

(** The [size] argument of a sampler: a [float] is a [TypeError], a
    negative [int] a [ValueError], both raised before sampling. *)
Definition sample (one : rng -> R * rng) (size : py_num) : M ndarray :=
  match size with
  | PyFloat _ => raise TypeError
  | PyInt n =>
      if (n <? 0)%Z then raise ValueError
      else fun w => let (xs, w') := draws one (Z.to_nat n) w in (inr xs, w')
  end.

(** One gamma variate: [scale] times a standard gamma of [shape]. *)
Definition gamma_variate (shape scale : R) (s : rng) : R * rng :=
  let (g, s') := standard_gamma shape s in (scale * g, s').

(** One normal variate: [loc] plus [scale] times a standard normal. *)
Definition normal_variate (loc scale : R) (s : rng) : R * rng :=
  let (g, s') := standard_normal s in (loc + scale * g, s').

(** [np.random.gamma(shape, scale, size)] *)
Definition gamma (shape scale : R) (size : py_num) : M ndarray :=
  sample (gamma_variate shape scale) size.

(** [np.random.normal(loc, scale, size)] *)
Definition normal (loc scale : R) (size : py_num) : M ndarray :=
  sample (normal_variate loc scale) size.

End Random.
End random.

End np.

(** ** pandas *)

Module pd.
Section Pandas.
Context `{Runtime}.

(** Dates are days since 1970-01-01 (a Thursday); [first_sunday d] is [d]
    rolled forward to a Sunday, the anchor of the frequency ['W']. *)
Definition first_sunday (d : Z) : Z := (d + (3 - d) mod 7)%Z.

(** [pd.date_range(start=d, periods=n, freq='W')] *)
Definition date_range (start : Z) (periods : py_num) : exn + list Z :=
  match periods with
  | PyInt n =>
      if (0 <=? n)%Z
      then inr (map (fun i => (first_sunday start + 7 * Z.of_nat i)%Z)
                    (seq 0 (Z.to_nat n)))
      else date_range_other periods
  | PyFloat _ => date_range_other periods
  end.

(** The table the generator returns: four columns, one row per week. *)
Record frame : Type := Frame {
  week : list Z;
  tv_spend : ndarray;
  search_spend : ndarray;
  sales : ndarray
}.

(** [pd.DataFrame({...})]: columns of different lengths are a
    [ValueError]. *)
Definition DataFrame (week : list Z) (tv_spend search_spend sales : ndarray)
    : exn + frame :=
  if (length tv_spend =? length week)%nat
     && (length search_spend =? length week)%nat
     && (length sales =? length week)%nat
  then inr (Frame week tv_spend search_spend sales)
  else inl ValueError.

End Pandas.
End pd.

(** ** The two transforms *)

(** Body of the loop of [apply_adstock]:
    [adstocked_spend[t] = spend[t] + alpha * adstocked_spend[t-1]]. *)
Definition adstock_step (spend : ndarray) (alpha : R)
    (adstocked_spend : ndarray) (t : nat) : ndarray :=
  <[ t := getitem spend t + alpha * getitem adstocked_spend (t - 1) ]>
    adstocked_spend.

(** [[
    def apply_adstock(spend, alpha):
        adstocked_spend = np.zeros_like(spend)
        for t in range(1, len(spend)):
            adstocked_spend[t] = spend[t] + alpha * adstocked_spend[t-1]
        return adstocked_spend
    ]] *)
Definition apply_adstock (spend : ndarray) (alpha : R) : ndarray :=
  fold_left (adstock_step spend alpha)
            (py_range 1 (length spend))
            (np.zeros_like spend).

(** State of [adstocked_spend] after the iterations [t = 1 .. k]. *)
Definition adstock_upto (spend : ndarray) (alpha : R) (k : nat) : ndarray :=
  fold_left (adstock_step spend alpha) (seq 1 k) (np.zeros_like spend).

(** [[
    def apply_saturation(spend, K):
        return spend / (spend + K)
    ]] *)
Definition apply_saturation (spend : ndarray) (K : R) : ndarray :=
  np.div spend (np.adds spend K).

(** *** The saturation transform on binary64 values

    [apply_saturation] once more, on the values NumPy computes with: a
    [float64] array is a list of binary64 numbers and [+] and [/] are the
    correctly rounded operations of IEEE 754. *)
Module b64.

Definition apply_saturation (spend : list float) (K : float) : list float :=
  zip_with PrimFloat.div spend (map (fun x => (x + K)%float) spend).

End b64.

(** ** The generator *)

Section Generator.
Context `{Runtime}.

(** 2021-01-01 in days since 1970-01-01. *)
Definition start_date : Z := 18628.

(** [generate_mmm_data(weeks=156)], statement by statement. *)
Definition generate_mmm_data (weeks : py_num) : M pd.frame :=
  np.random.seed 42 ;;;
  date_range <- lift (pd.date_range start_date weeks) ;;
  tv_spend <- np.random.gamma 2 1000 weeks ;;
  let w := py_index weeks in
  let tv_spend := np.slice_iadd tv_spend (w / 3) (w / 3 + 10) 5000 in
  search_spend <- np.random.normal 2000 500 weeks ;;
  let search_spend := np.clip search_spend 500 in
  let baseline_sales := 10000 in
  let tv_effect :=
    np.smul 0.5 (apply_saturation (apply_adstock tv_spend 0.6) 3000) in
  let search_effect :=
    np.smul 0.3 (apply_saturation (apply_adstock search_spend 0.1) 500) in
  let seasonality :=
    np.sadd 1 (np.smul 0.2
      (np.sin (np.divs (np.smul (2 * np.pi) (np.arange w)) 52))) in
  let sales :=
    np.mul (np.add (np.sadd baseline_sales (np.muls tv_effect 50000))
                   (np.muls search_effect 20000))
           seasonality in
  noise <- np.random.normal 0 500 weeks ;;
  let sales := np.add sales noise in
  lift (pd.DataFrame date_range tv_spend search_spend sales).

(** *** The run of the generator, named step by step

    For a call with [weeks = n] from the world [w]: the world the seeding
    leaves, the three batches of variates in the order the source draws
    them, and the columns computed from them. *)

Definition seeded (w : world) : world :=
  World _ (seed_state 42) (drawn w).

Definition tv_draws (n : nat) (w : world) : ndarray * world :=
  np.random.draws (np.random.gamma_variate 2 1000) n (seeded w).

Definition search_draws (n : nat) (w : world) : ndarray * world :=
  np.random.draws (np.random.normal_variate 2000 500) n (snd (tv_draws n w)).

Definition noise_draws (n : nat) (w : world) : ndarray * world :=
  np.random.draws (np.random.normal_variate 0 500) n (snd (search_draws n w)).

Definition week_column (n : nat) : list Z :=
  map (fun i => (pd.first_sunday start_date + 7 * Z.of_nat i)%Z) (seq 0 n).

Definition tv_column (n : nat) (w : world) : ndarray :=
  np.slice_iadd (fst (tv_draws n w)) (n / 3) (n / 3 + 10) 5000.

Definition search_column (n : nat) (w : world) : ndarray :=
  np.clip (fst (search_draws n w)) 500.

(** The Effect Sequences: saturation of adstock, per channel. *)
Definition effect_tv (tv : ndarray) : ndarray :=
  apply_saturation (apply_adstock tv 0.6) 3000.

Definition effect_search (search : ndarray) : ndarray :=
  apply_saturation (apply_adstock search 0.1) 500.

Definition seasonality (n : nat) : ndarray :=
  np.sadd 1 (np.smul 0.2
    (np.sin (np.divs (np.smul (2 * np.pi) (np.arange n)) 52))).

Definition sales_column (n : nat) (w : world) : ndarray :=
  np.add
    (np.mul
       (np.add
          (np.sadd 10000 (np.muls (np.smul 0.5 (effect_tv (tv_column n w)))
                                  50000))
          (np.muls (np.smul 0.3 (effect_search (search_column n w))) 20000))
       (seasonality n))
    (fst (noise_draws n w)).

(** The exception a call with a negative or non-integer [weeks] ends in:
    the one of [pd.date_range] when it refuses the value, otherwise the
    one of [np.random.gamma]. *)
Definition refusal (weeks : py_num) : exn :=
  match date_range_other weeks with
  | inl e => e
  | inr _ =>
      match weeks with
      | PyInt _ => ValueError
      | PyFloat _ => TypeError
      end
  end.

End Generator.

(** ** A concrete runtime

    A small instance to run the generator on: the generator state is a
    counter [k], seeding with [n] sets it to [n], the standard gamma variate
    at [k] is [k] and the standard normal variate at [k] is [k - 47]. *)
Definition demo_runtime : Runtime := {|
  rng := nat;
  seed_state := Z.to_nat;
  standard_gamma := fun _ k => (INR k, S k);
  standard_normal := fun k => (INR k - 47, S k);
  date_range_other := fun _ => inl ValueError
|}.

Definition demo_world : @world demo_runtime := @World demo_runtime 7%nat 0%nat.

(** ** Other readings of the adstock loop *)

(** The same recurrence as one left-to-right pass that carries the previous
    output along, instead of an array updated in place. *)
Fixpoint adstock_carry (alpha prev : R) (rest : ndarray) : ndarray :=
  match rest with
  | [] => []
  | x :: rest' =>
      let v := x + alpha * prev in
      v :: adstock_carry alpha v rest'
  end.

Definition adstock_scan (spend : ndarray) (alpha : R) : ndarray :=
  match spend with
  | [] => []
  | _ :: rest => 0 :: adstock_carry alpha 0 rest
  end.


(** ** The script

    The block under [if __name__ == "__main__"], over a file system of
    directories and regular files, keyed by path, in which every operation
    is permitted. A regular file holds the table written to it ([to_csv]'s
    text encoding is not modelled). [print] and the matplotlib calls that
    end the script touch neither the files nor the generator; each of the
    two either completes or raises, as the terminal and the display
    decide. *)

Inductive node : Type :=
  | Dir
  | File (table : pd.frame).

Inductive script_exn : Type :=
  | Raised (e : exn)
  | OSError.

Definition data_dir : string := "data".
Definition csv_path : string := "data/raw_marketing_data.csv".

Module os.

(** [os.path.exists(p)] *)
Definition path_exists (fs : gmap string node) (p : string) : bool :=
  match fs !! p with
  | Some _ => true
  | None => false
  end.

(** [os.makedirs(p)] for a one-component path: an existing entry is a
    [FileExistsError] (an [OSError]). *)
Definition makedirs (fs : gmap string node) (p : string)
    : script_exn + gmap string node :=
  match fs !! p with
  | Some _ => inl OSError
  | None => inr (<[p := Dir]> fs)
  end.

End os.

(** [data.to_csv('data/raw_marketing_data.csv', index=False)]: the parent
    must be a directory and the target must not be one; an existing file is
    overwritten. *)
Definition to_csv (data : pd.frame) (fs : gmap string node)
    : script_exn + gmap string node :=
  match fs !! data_dir with
  | Some Dir =>
      match fs !! csv_path with
      | Some Dir => inl OSError
      | _ => inr (<[csv_path := File data]> fs)
      end
  | _ => inl OSError
  end.

(** Where the script runs: what [print] of the closing message does on
    this standard output (a stream that cannot encode the message raises)
    and what the matplotlib calls from [plt.figure] to [plt.show] do on
    this display; [None] when they complete, the exception otherwise. *)
Record terminal : Type := Terminal {
  print_message : option script_exn;
  show_plot : option script_exn
}.

(** The script: the exception it ends in, if any, the files and the
    generator it leaves. *)
Definition main `{Runtime} (env : terminal) (w : world)
    (fs : gmap string node)
    : option script_exn * gmap string node * world :=
  match (if os.path_exists fs data_dir then inr fs
         else os.makedirs fs data_dir) with
  | inl e => (Some e, fs, w)
  | inr fs1 =>
      match generate_mmm_data (PyInt 156) w with
      | (inl e, w1) => (Some (Raised e), fs1, w1)
      | (inr data, w1) =>
          match to_csv data fs1 with
          | inl e => (Some e, fs1, w1)
          | inr fs2 =>
              match print_message env with
              | Some e => (Some e, fs2, w1)
              | None => (show_plot env, fs2, w1)
              end
          end
      end
  end.

(** The exception the end of the script raises, if any. *)
Definition closing (env : terminal) : option script_exn :=
  match print_message env with
  | Some e => Some e
  | None => show_plot env
  end.

(** The table a run of the script writes. *)
Definition script_table `{Runtime} (w : world) : pd.frame :=
  pd.Frame (week_column 156) (tv_column 156 w) (search_column 156 w)
           (sales_column 156 w).

(** * Properties *)

(** ** Arrays *)

Lemma getitem_insert_eq (a : ndarray) (t : nat) (v : R) :
  (t < length a)%nat -> getitem (<[t := v]> a) t = v.
Proof.
  intros Ht. unfold getitem.
  rewrite nth_lookup, list_lookup_insert_eq by exact Ht. reflexivity.
Qed.

Lemma getitem_insert_ne (a : ndarray) (t i : nat) (v : R) :
  t <> i -> getitem (<[t := v]> a) i = getitem a i.
Proof.
  intros Hne. unfold getitem.
  rewrite !nth_lookup, list_lookup_insert_ne by exact Hne. reflexivity.
Qed.

Lemma getitem_zeros_like (a : ndarray) (i : nat) :
  getitem (np.zeros_like a) i = 0.
Proof.
  unfold getitem, np.zeros_like. rewrite nth_lookup.
  destruct (replicate (length a) 0 !! i) as [x|] eqn:E; simpl.
  - apply lookup_replicate in E. tauto.
  - reflexivity.
Qed.

Lemma getitem_map (f : R -> R) (a : ndarray) (i : nat) :
  (i < length a)%nat -> getitem (map f a) i = f (getitem a i).
Proof.
  intros Hi. unfold getitem.
  rewrite (nth_indep _ 0 (f 0)) by (rewrite length_map; exact Hi).
  apply map_nth.
Qed.

Lemma getitem_zip_with (f : R -> R -> R) (a b : ndarray) (i : nat) :
  (i < length a)%nat -> (i < length b)%nat ->
  getitem (zip_with f a b) i = f (getitem a i) (getitem b i).
Proof.
  revert b i. induction a as [|x a IH]; intros [|y b] i Ha Hb;
    simpl in *; try lia.
  destruct i as [|i]; [reflexivity|].
  change (getitem (zip_with f a b) i = f (getitem a i) (getitem b i)).
  apply IH; lia.
Qed.

Lemma Forall_getitem (P : R -> Prop) (a : ndarray) :
  Forall P a <-> forall i, (i < length a)%nat -> P (getitem a i).
Proof.
  unfold getitem. split.
  - intros HP i Hi. rewrite List.Forall_forall in HP. apply HP.
    apply nth_In. exact Hi.
  - intros HP. apply List.Forall_forall. intros x Hx.
    apply (In_nth _ _ 0) in Hx. destruct Hx as (i & Hi & <-).
    apply HP. exact Hi.
Qed.

(** ** Small runs *)

Example adstock_three_weeks :
  apply_adstock [100; 50; 20] 0.5 = [0; 50 + 0.5 * 0; 20 + 0.5 * (50 + 0.5 * 0)].
Proof. reflexivity. Qed.

Example saturation_two_cells :
  apply_saturation [0; 1500] 500 = [0 / (0 + 500); 1500 / (1500 + 500)].
Proof. reflexivity. Qed.

Example slice_iadd_past_the_end :
  np.slice_iadd [1; 2; 3] 1 11 5000 = [1; 2 + 5000; 3 + 5000].
Proof. reflexivity. Qed.

Example slice_iadd_outside :
  np.slice_iadd [1; 2; 3] 3 13 5000 = [1; 2; 3].
Proof. reflexivity. Qed.

Example date_range_three_weeks :
  @pd.date_range demo_runtime start_date (PyInt 3) =
  inr [18630; 18637; 18644]%Z.
Proof. reflexivity. Qed.

Example demo_tv_spend :
  @tv_column demo_runtime 3 demo_world =
  [1000 * INR 42; 1000 * INR 43 + 5000; 1000 * INR 44 + 5000].
Proof. reflexivity. Qed.

Example demo_negative_weeks :
  @generate_mmm_data demo_runtime (PyInt (-1)) demo_world =
  (inl ValueError, @World demo_runtime 42%nat 0%nat).
Proof. reflexivity. Qed.

(** ** The adstock loop *)

Lemma adstock_upto_S spend alpha k :
  adstock_upto spend alpha (S k) =
  adstock_step spend alpha (adstock_upto spend alpha k) (S k).
Proof.
  unfold adstock_upto. rewrite seq_S, fold_left_app. reflexivity.
Qed.

Lemma adstock_upto_length spend alpha k :
  length (adstock_upto spend alpha k) = length spend.
Proof.
  induction k as [|k IH].
  - unfold adstock_upto, np.zeros_like. simpl. apply length_replicate.
  - rewrite adstock_upto_S. unfold adstock_step.
    rewrite length_insert. exact IH.
Qed.

(** Loop invariant: the cells [1 .. k] obey the recurrence, every other
    cell still holds the zero [np.zeros_like] put there. *)
Lemma adstock_upto_inv spend alpha k :
  (S k <= length spend)%nat ->
  (forall i, (i = 0 \/ k < i)%nat ->
     getitem (adstock_upto spend alpha k) i = 0) /\
  (forall i, (1 <= i <= k)%nat ->
     getitem (adstock_upto spend alpha k) i =
     getitem spend i + alpha * getitem (adstock_upto spend alpha k) (i - 1)).
Proof.
  induction k as [|k IH]; intros Hk.
  - split.
    + intros i _. apply getitem_zeros_like.
    + intros i Hi. lia.
  - destruct IH as [IH0 IHr]; [lia|].
    rewrite adstock_upto_S. unfold adstock_step. split.
    + intros i Hi. rewrite getitem_insert_ne by lia. apply IH0. lia.
    + intros i Hi.
      destruct (Nat.eq_dec i (S k)) as [->|Hne].
      * rewrite getitem_insert_eq by (rewrite adstock_upto_length; lia).
        rewrite getitem_insert_ne by lia. reflexivity.
      * rewrite !getitem_insert_ne by lia. apply IHr. lia.
Qed.

Lemma apply_adstock_upto spend alpha :
  apply_adstock spend alpha = adstock_upto spend alpha (length spend - 1).
Proof. reflexivity. Qed.

Lemma apply_adstock_length spend alpha :
  length (apply_adstock spend alpha) = length spend.
Proof. rewrite apply_adstock_upto. apply adstock_upto_length. Qed.

(** Cell 0 is never written by the loop. *)
Lemma apply_adstock_first spend alpha :
  getitem (apply_adstock spend alpha) 0 = 0.
Proof.
  rewrite apply_adstock_upto.
  destruct spend as [|x spend].
  - reflexivity.
  - apply adstock_upto_inv; simpl; lia.
Qed.

Lemma apply_adstock_rec spend alpha t :
  (1 <= t < length spend)%nat ->
  getitem (apply_adstock spend alpha) t =
  getitem spend t + alpha * getitem (apply_adstock spend alpha) (t - 1).
Proof.
  intros Ht. rewrite apply_adstock_upto.
  apply adstock_upto_inv; lia.
Qed.

(** What [apply_adstock] computes, cell by cell: the output has the length
    of the input, cell 0 holds 0, and every later cell holds the spend of
    its week plus [alpha] times the cell before it. *)
Lemma apply_adstock_cells spend alpha :
  length (apply_adstock spend alpha) = length spend /\
  getitem (apply_adstock spend alpha) 0 = 0 /\
  (forall t, (1 <= t < length spend)%nat ->
     getitem (apply_adstock spend alpha) t =
     getitem spend t + alpha * getitem (apply_adstock spend alpha) (t - 1)).
Proof.
  split; [apply apply_adstock_length|].
  split; [apply apply_adstock_first|].
  intros t Ht. apply apply_adstock_rec. exact Ht.
Qed.

Lemma apply_adstock_nonneg_cell spend alpha t :
  Forall (fun x => 0 <= x) spend -> 0 <= alpha ->
  0 <= getitem (apply_adstock spend alpha) t.
Proof.
  intros Hs Ha. induction t as [|t IH].
  - rewrite apply_adstock_first. lra.
  - destruct (Nat.lt_ge_cases (S t) (length spend)) as [Hlt|Hge].
    + rewrite apply_adstock_rec by lia.
      replace (S t - 1)%nat with t by lia.
      assert (0 <= getitem spend (S t))
        by (apply (proj1 (Forall_getitem _ _) Hs); exact Hlt).
      nra.
    + unfold getitem. rewrite nth_overflow; [lra|].
      rewrite apply_adstock_length. exact Hge.
Qed.

Lemma apply_adstock_mono_cell spend a1 a2 t :
  Forall (fun x => 0 <= x) spend -> 0 <= a1 <= a2 ->
  getitem (apply_adstock spend a1) t <= getitem (apply_adstock spend a2) t.
Proof.
  intros Hs Ha. induction t as [|t IH].
  - rewrite !apply_adstock_first. lra.
  - destruct (Nat.lt_ge_cases (S t) (length spend)) as [Hlt|Hge].
    + rewrite (apply_adstock_rec spend a1 (S t)),
              (apply_adstock_rec spend a2 (S t)) by lia.
      replace (S t - 1)%nat with t by lia.
      assert (H1 : 0 <= getitem (apply_adstock spend a1) t)
        by (apply apply_adstock_nonneg_cell; [exact Hs|lra]).
      set (o1 := getitem (apply_adstock spend a1) t) in *.
      set (o2 := getitem (apply_adstock spend a2) t) in *.
      assert (0 <= a2 * (o2 - o1)) by (apply Rmult_le_pos; lra).
      assert (0 <= (a2 - a1) * o1) by (apply Rmult_le_pos; lra).
      lra.
    + unfold getitem. rewrite !nth_overflow; [lra| |];
        rewrite apply_adstock_length; exact Hge.
Qed.

(** ** The saturation transform *)

Lemma apply_saturation_map spend K :
  apply_saturation spend K = map (fun x => x / (x + K)) spend.
Proof.
  unfold apply_saturation, np.div, np.adds.
  induction spend as [|x spend IH]; simpl; [reflexivity|].
  f_equal. exact IH.
Qed.

Lemma apply_saturation_length spend K :
  length (apply_saturation spend K) = length spend.
Proof. rewrite apply_saturation_map. apply length_map. Qed.

Lemma apply_saturation_cell spend K t :
  (t < length spend)%nat ->
  getitem (apply_saturation spend K) t =
  getitem spend t / (getitem spend t + K).
Proof.
  intros Ht. rewrite apply_saturation_map.
  apply (getitem_map (fun x => x / (x + K))). exact Ht.
Qed.

Lemma hill_bounds x K : 0 <= x -> 0 < K -> 0 <= x / (x + K) < 1.
Proof.
  intros Hx HK. split.
  - apply Rmult_le_pos; [exact Hx|].
    left. apply Rinv_0_lt_compat. lra.
  - apply (Rmult_lt_reg_r (x + K)); [lra|].
    unfold Rdiv. rewrite Rmult_assoc, Rinv_l by lra. lra.
Qed.


(** ** Slices and samplers *)

Lemma slice_iadd_length (a : ndarray) lo hi v :
  (lo <= hi)%nat -> length (np.slice_iadd a lo hi v) = length a.
Proof.
  intros Hle. unfold np.slice_iadd.
  rewrite !length_app, length_map, !length_take, !length_drop. lia.
Qed.

(** [a[lo:hi] += v] adds [v] to the cells [lo <= i < hi] that exist and
    leaves every other cell as it was. *)
Lemma slice_iadd_cell (a : ndarray) lo hi v i :
  (lo <= hi)%nat -> (i < length a)%nat ->
  getitem (np.slice_iadd a lo hi v) i =
  if (lo <=? i)%nat && (i <? hi)%nat then getitem a i + v else getitem a i.
Proof.
  intros Hle Hi. unfold np.slice_iadd, getitem.
  destruct (Nat.leb_spec lo i) as [Hlo|Hlo]; simpl.
  - rewrite app_nth2 by (rewrite length_take; lia).
    rewrite length_take, Nat.min_l by lia.
    destruct (Nat.ltb_spec i hi) as [Hhi|Hhi].
    + rewrite app_nth1
        by (rewrite length_map, length_take, length_drop; lia).
      change (getitem (map (fun x => x + v) (take (hi - lo) (drop lo a)))
                      (i - lo) = nth i a 0 + v).
      rewrite getitem_map by (rewrite length_take, length_drop; lia).
      unfold getitem. rewrite nth_firstn.
      destruct (Nat.ltb_spec (i - lo) (hi - lo)); [|lia].
      rewrite nth_skipn. do 2 f_equal. lia.
    + rewrite app_nth2
        by (rewrite length_map, length_take, length_drop; lia).
      rewrite length_map, length_take, length_drop, nth_skipn.
      f_equal. lia.
  - rewrite app_nth1 by (rewrite length_take; lia).
    rewrite nth_firstn.
    destruct (Nat.ltb_spec i lo); [reflexivity|lia].
Qed.

Section Samplers.
Context `{Runtime}.

Lemma draws_length one n w :
  length (fst (np.random.draws one n w)) = n.
Proof.
  revert w. induction n as [|n IH]; intros w; simpl; [reflexivity|].
  destruct (one (mt w)) as [x s'].
  specialize (IH (World _ s' (S (drawn w)))).
  destruct (np.random.draws one n _) as [xs w']. simpl in *.
  f_equal. exact IH.
Qed.

Lemma draws_drawn one n w :
  drawn (snd (np.random.draws one n w)) = (drawn w + n)%nat.
Proof.
  revert w. induction n as [|n IH]; intros w; simpl; [lia|].
  destruct (one (mt w)) as [x s'].
  specialize (IH (World _ s' (S (drawn w)))).
  destruct (np.random.draws one n _) as [xs w']. simpl in *. lia.
Qed.

Lemma draws_Forall (P : R -> Prop) one n w :
  (forall s, P (fst (one s))) ->
  Forall P (fst (np.random.draws one n w)).
Proof.
  intros HP. revert w. induction n as [|n IH]; intros w; simpl.
  - constructor.
  - pose proof (HP (mt w)) as Hx.
    destruct (one (mt w)) as [x s'].
    specialize (IH (World _ s' (S (drawn w)))).
    destruct (np.random.draws one n _) as [xs w']. simpl in *.
    constructor; assumption.
Qed.

Lemma sample_nat one n w :
  np.random.sample one (PyInt (Z.of_nat n)) w =
  (inr (fst (np.random.draws one n w)), snd (np.random.draws one n w)).
Proof.
  unfold np.random.sample.
  destruct (Z.ltb_spec (Z.of_nat n) 0) as [Hneg|_]; [lia|].
  rewrite Nat2Z.id.
  destruct (np.random.draws one n w) as [xs w']. reflexivity.
Qed.

End Samplers.

(** ** The generator *)

Section GeneratorFacts.
Context `{Runtime}.

Lemma week_column_length n : length (week_column n) = n.
Proof. unfold week_column. rewrite length_map. apply length_seq. Qed.

Lemma tv_column_length n w : length (tv_column n w) = n.
Proof.
  unfold tv_column. rewrite slice_iadd_length by lia.
  apply draws_length.
Qed.

Lemma search_column_length n w : length (search_column n w) = n.
Proof.
  unfold search_column, np.clip. rewrite length_map. apply draws_length.
Qed.

Lemma effect_tv_length tv : length (effect_tv tv) = length tv.
Proof.
  unfold effect_tv. rewrite apply_saturation_length.
  apply apply_adstock_length.
Qed.

Lemma effect_search_length s : length (effect_search s) = length s.
Proof.
  unfold effect_search. rewrite apply_saturation_length.
  apply apply_adstock_length.
Qed.

Lemma seasonality_length n : length (seasonality n) = n.
Proof.
  unfold seasonality, np.sadd, np.smul, np.sin, np.divs, np.arange.
  rewrite !length_map. apply length_seq.
Qed.

Lemma sales_column_length n w : length (sales_column n w) = n.
Proof.
  unfold sales_column, np.add, np.mul, np.sadd, np.muls, np.smul.
  rewrite !length_zip_with, !length_map.
  rewrite effect_tv_length, effect_search_length.
  rewrite tv_column_length, search_column_length, seasonality_length.
  unfold noise_draws. rewrite draws_length. lia.
Qed.

(** A call with a nonnegative [int] runs to the end: it returns the four
    columns named above and leaves the generator after the noise batch. *)
Lemma generate_mmm_data_run n w :
  generate_mmm_data (PyInt (Z.of_nat n)) w =
  (inr (pd.Frame (week_column n) (tv_column n w) (search_column n w)
                 (sales_column n w)),
   snd (noise_draws n w)).
Proof.
  unfold generate_mmm_data, bind at 1. unfold np.random.seed.
  fold (seeded w).
  unfold bind at 1. unfold pd.date_range.
  destruct (Z.leb_spec 0 (Z.of_nat n)) as [_|Hneg]; [|lia].
  rewrite Nat2Z.id. unfold lift at 1, ret at 1.
  unfold bind at 1. unfold np.random.gamma. rewrite sample_nat.
  fold (tv_draws n w).
  unfold bind at 1. unfold np.random.normal at 1. rewrite sample_nat.
  fold (search_draws n w).
  unfold bind at 1. unfold np.random.normal at 1. rewrite sample_nat.
  fold (noise_draws n w).
  unfold py_index. rewrite Nat2Z.id.
  fold (tv_column n w). fold (search_column n w).
  fold (effect_tv (tv_column n w)).
  fold (effect_search (search_column n w)).
  fold (seasonality n). fold (sales_column n w). fold (week_column n).
  unfold pd.DataFrame.
  rewrite tv_column_length, search_column_length, sales_column_length,
    week_column_length, Nat.eqb_refl.
  reflexivity.
Qed.

End GeneratorFacts.

(** ** Runs of the generator *)

Section GeneratorRuns.
Context `{Runtime}.

(** A negative [int] is refused by [np.random.gamma] at the latest; the
    generator is left as the seeding set it. *)
Lemma generate_mmm_data_negative (n : Z) (w : world) :
  (n < 0)%Z ->
  generate_mmm_data (PyInt n) w = (inl (refusal (PyInt n)), seeded w).
Proof.
  intros Hn. unfold generate_mmm_data, bind at 1. unfold np.random.seed.
  fold (seeded w). unfold bind at 1. unfold pd.date_range, refusal.
  destruct (Z.leb_spec 0 n) as [Hpos|_]; [lia|].
  destruct (date_range_other (PyInt n)) as [e|dates]; simpl.
  - reflexivity.
  - unfold bind at 1.
    unfold np.random.gamma, np.random.sample.
    destruct (Z.ltb_spec n 0) as [_|Hpos]; [|lia]. reflexivity.
Qed.

(** So is a [float]. *)
Lemma generate_mmm_data_float (x : R) (w : world) :
  generate_mmm_data (PyFloat x) w = (inl (refusal (PyFloat x)), seeded w).
Proof.
  unfold generate_mmm_data, bind at 1. unfold np.random.seed.
  fold (seeded w). unfold bind at 1. unfold pd.date_range, refusal.
  destruct (date_range_other (PyFloat x)) as [e|dates]; reflexivity.
Qed.

(** Every frame the generator returns is the one of [generate_mmm_data_run]. *)
Lemma generate_mmm_data_inr (weeks : py_num) (w : world) (df : pd.frame) :
  fst (generate_mmm_data weeks w) = inr df ->
  exists n, weeks = PyInt (Z.of_nat n) /\
    df = pd.Frame (week_column n) (tv_column n w) (search_column n w)
                  (sales_column n w).
Proof.
  intros Hdf. destruct weeks as [n|x].
  - destruct (Z.lt_ge_cases n 0) as [Hneg|Hpos].
    + rewrite (generate_mmm_data_negative n w Hneg) in Hdf. discriminate.
    + exists (Z.to_nat n). rewrite Z2Nat.id by exact Hpos. split; [reflexivity|].
      rewrite <- (Z2Nat.id n) in Hdf by exact Hpos.
      rewrite generate_mmm_data_run in Hdf. simpl in Hdf.
      injection Hdf as <-. reflexivity.
  - rewrite generate_mmm_data_float in Hdf. discriminate.
Qed.

(** The variates drawn and the generator state reached depend on the
    generator state alone, not on the ghost count. *)
Lemma draws_mt one n w1 w2 :
  mt w1 = mt w2 ->
  fst (np.random.draws one n w1) = fst (np.random.draws one n w2) /\
  mt (snd (np.random.draws one n w1)) = mt (snd (np.random.draws one n w2)).
Proof.
  revert w1 w2. induction n as [|n IH]; intros w1 w2 Hmt; simpl.
  - split; [reflexivity|exact Hmt].
  - rewrite Hmt. destruct (one (mt w2)) as [x s'].
    specialize (IH (World _ s' (S (drawn w1))) (World _ s' (S (drawn w2)))
                   eq_refl).
    destruct (np.random.draws one n (World _ s' (S (drawn w1)))) as [xs1 u1].
    destruct (np.random.draws one n (World _ s' (S (drawn w2)))) as [xs2 u2].
    simpl in *. destruct IH as [-> ->]. split; reflexivity.
Qed.

Lemma columns_mt n w1 w2 :
  tv_column n w1 = tv_column n w2 /\
  search_column n w1 = search_column n w2 /\
  sales_column n w1 = sales_column n w2 /\
  mt (snd (noise_draws n w1)) = mt (snd (noise_draws n w2)).
Proof.
  destruct (draws_mt (np.random.gamma_variate 2 1000) n
              (seeded w1) (seeded w2) eq_refl) as [Htv Hs1].
  fold (tv_draws n w1) in Htv, Hs1. fold (tv_draws n w2) in Htv, Hs1.
  destruct (draws_mt (np.random.normal_variate 2000 500) n _ _ Hs1)
    as [Hse Hs2].
  fold (search_draws n w1) in Hse, Hs2. fold (search_draws n w2) in Hse, Hs2.
  destruct (draws_mt (np.random.normal_variate 0 500) n _ _ Hs2)
    as [Hno Hs3].
  fold (noise_draws n w1) in Hno, Hs3. fold (noise_draws n w2) in Hno, Hs3.
  assert (Et : tv_column n w1 = tv_column n w2)
    by (unfold tv_column; rewrite Htv; reflexivity).
  assert (Es : search_column n w1 = search_column n w2)
    by (unfold search_column; rewrite Hse; reflexivity).
  repeat split; try assumption.
  unfold sales_column. rewrite Et, Es, Hno. reflexivity.
Qed.

End GeneratorRuns.

Section GeneratorCells.
Context `{Runtime}.

Lemma seasonality_cell n t :
  (t < n)%nat ->
  getitem (seasonality n) t = 1 + 0.2 * sin (2 * PI * INR t / 52).
Proof.
  intros Ht. unfold seasonality, np.sadd, np.smul, np.sin, np.divs,
    np.arange, np.pi.
  rewrite (getitem_map (fun x => 1 + x))
    by (rewrite !length_map, length_seq; exact Ht).
  rewrite (getitem_map (fun x => 0.2 * x))
    by (rewrite !length_map, length_seq; exact Ht).
  rewrite (getitem_map sin)
    by (rewrite !length_map, length_seq; exact Ht).
  rewrite (getitem_map (fun x => x / 52))
    by (rewrite !length_map, length_seq; exact Ht).
  rewrite (getitem_map (fun x => 2 * PI * x))
    by (rewrite !length_map, length_seq; exact Ht).
  unfold getitem.
  rewrite (nth_indep _ 0 (INR 0)) by (rewrite length_map, length_seq; exact Ht).
  rewrite map_nth, seq_nth by exact Ht. reflexivity.
Qed.

Lemma sales_column_cell n w t :
  (t < n)%nat ->
  getitem (sales_column n w) t =
  (10000 + 0.5 * 50000 * getitem (effect_tv (tv_column n w)) t
         + 0.3 * 20000 * getitem (effect_search (search_column n w)) t)
  * (1 + 0.2 * sin (2 * PI * INR t / 52))
  + getitem (fst (noise_draws n w)) t.
Proof.
  intros Ht.
  assert (Ltv : length (effect_tv (tv_column n w)) = n)
    by (rewrite effect_tv_length; apply tv_column_length).
  assert (Lse : length (effect_search (search_column n w)) = n)
    by (rewrite effect_search_length; apply search_column_length).
  assert (Lno : length (fst (noise_draws n w)) = n)
    by (apply draws_length).
  pose proof (seasonality_length n) as Lsn.
  unfold sales_column, np.add, np.mul, np.sadd, np.muls, np.smul.
  rewrite getitem_zip_with;
    [|rewrite !length_zip_with, !length_map; lia|lia].
  rewrite getitem_zip_with;
    [|rewrite !length_zip_with, !length_map; lia|lia].
  rewrite getitem_zip_with; [|rewrite !length_map; lia..].
  rewrite (getitem_map (fun x => 10000 + x)) by (rewrite !length_map; lia).
  rewrite !(getitem_map (fun x => x * _)) by (rewrite !length_map; lia).
  rewrite !(getitem_map (fun x => _ * x)) by lia.
  rewrite seasonality_cell by exact Ht.
  ring.
Qed.

Lemma tv_column_cell n w t :
  (t < n)%nat ->
  getitem (tv_column n w) t =
  if (n / 3 <=? t)%nat && (t <? n / 3 + 10)%nat
  then getitem (fst (tv_draws n w)) t + 5000
  else getitem (fst (tv_draws n w)) t.
Proof.
  intros Ht. unfold tv_column. apply slice_iadd_cell; [lia|].
  unfold tv_draws. rewrite draws_length. exact Ht.
Qed.

Lemma search_column_cell n w t :
  (t < n)%nat ->
  getitem (search_column n w) t = Rmax 500 (getitem (fst (search_draws n w)) t).
Proof.
  intros Ht. unfold search_column, np.clip. apply getitem_map.
  unfold search_draws. rewrite draws_length. exact Ht.
Qed.

Lemma week_column_cell n t :
  (t < n)%nat ->
  nth t (week_column n) 0%Z = (18630 + 7 * Z.of_nat t)%Z.
Proof.
  intros Ht. unfold week_column.
  rewrite (nth_indep _ 0%Z
             ((fun i => (pd.first_sunday start_date + 7 * Z.of_nat i)%Z) 0%nat))
    by (rewrite length_map, length_seq; exact Ht).
  rewrite (map_nth (fun i => (pd.first_sunday start_date + 7 * Z.of_nat i)%Z)).
  rewrite seq_nth by exact Ht. reflexivity.
Qed.

Lemma search_column_floor n w :
  Forall (fun x => 500 <= x) (search_column n w).
Proof.
  unfold search_column, np.clip. apply List.Forall_map.
  apply List.Forall_forall. intros x _. apply Rmax_l.
Qed.

Lemma tv_column_nonneg n w :
  (forall s, 0 <= fst (standard_gamma 2 s)) ->
  Forall (fun x => 0 <= x) (tv_column n w).
Proof.
  intros Hg. apply Forall_getitem. intros t Ht.
  rewrite tv_column_length in Ht. rewrite tv_column_cell by exact Ht.
  assert (Hraw : 0 <= getitem (fst (tv_draws n w)) t).
  { assert (HF : Forall (fun x => 0 <= x) (fst (tv_draws n w))).
    { unfold tv_draws. apply draws_Forall. intros s.
      unfold np.random.gamma_variate. specialize (Hg s).
      destruct (standard_gamma 2 s) as [g s']. simpl in *. lra. }
    apply (proj1 (Forall_getitem _ _) HF).
    unfold tv_draws. rewrite draws_length. exact Ht. }
  destruct ((n / 3 <=? t)%nat && (t <? n / 3 + 10)%nat); lra.
Qed.

End GeneratorCells.

(** * The claims *)

(** ** Adstock Transform *)

(** C1 (code defect). The contract asks for [adstocked[0] = spend[0]] and
    for a one-element input returned unchanged. The loop starts at [t = 1]
    over an array of zeros, so cell 0 is never written: a one-week spend of
    100 comes back as 0, and in a two-week input the first week's spend
    reaches neither its own cell nor the carry-over of the next. *)
Theorem apply_adstock_drops_first_week :
  apply_adstock [100] 0.6 = [0] /\
  apply_adstock [100; 50] 0.6 = [0; 50 + 0.6 * 0] /\
  getitem (apply_adstock [100] 0.6) 0 <> getitem [100] 0.
Proof.
  split; [reflexivity|]. split; [reflexivity|].
  unfold getitem. simpl. lra.
Qed.

(** C8. For a spend sequence with no negative element and decay parameters
    [0 <= a1 <= a2], the adstocked value at every index [t >= 1] under [a2]
    is at least the one under [a1]. *)
Theorem apply_adstock_monotone_in_alpha (spend : ndarray) (a1 a2 : R) (t : nat) :
  Forall (fun x => 0 <= x) spend ->
  0 <= a1 -> a1 <= a2 ->
  (1 <= t < length spend)%nat ->
  getitem (apply_adstock spend a1) t <= getitem (apply_adstock spend a2) t.
Proof.
  intros Hs H1 H2 _. apply apply_adstock_mono_cell; [exact Hs|lra].
Qed.

Lemma apply_adstock_monotone_in_alpha_witness :
  getitem (apply_adstock [100; 50; 20] 0.1) 2 <=
  getitem (apply_adstock [100; 50; 20] 0.6) 2.
Proof.
  apply (apply_adstock_monotone_in_alpha [100; 50; 20] 0.1 0.6 2).
  - repeat constructor; lra.
  - lra.
  - lra.
  - simpl. lia.
Defined.

(** ** Saturation Transform *)






(** ** Generator *)

(** C2. For a run with [weeks = n] and every week [t < n], the sales value
    is (10000 + 0.5 * 50000 * effect_tv[t] + 0.3 * 20000 * effect_search[t])
    * (1 + 0.2 * sin(2 pi t / 52)) + noise[t], the effects being the
    saturation of the adstock of the frame's own spend columns and the noise
    the batch drawn after both spend batches; nothing clamps the result. *)
Theorem sales_formula `{Runtime} (n : nat) (w : world) (t : nat) :
  (t < n)%nat ->
  exists df,
    fst (generate_mmm_data (PyInt (Z.of_nat n)) w) = inr df /\
    getitem (pd.sales df) t =
      (10000 + 0.5 * 50000 * getitem (effect_tv (pd.tv_spend df)) t
             + 0.3 * 20000 * getitem (effect_search (pd.search_spend df)) t)
      * (1 + 0.2 * sin (2 * PI * INR t / 52))
      + getitem (fst (noise_draws n w)) t.
Proof.
  intros Ht. eexists. rewrite generate_mmm_data_run.
  split; [reflexivity|]. simpl. apply sales_column_cell. exact Ht.
Qed.

Lemma sales_formula_witness :
  exists df,
    fst (@generate_mmm_data demo_runtime (PyInt 3) demo_world) = inr df /\
    getitem (pd.sales df) 1 =
      (10000 + 0.5 * 50000 * getitem (effect_tv (pd.tv_spend df)) 1
             + 0.3 * 20000 * getitem (effect_search (pd.search_spend df)) 1)
      * (1 + 0.2 * sin (2 * PI * INR 1 / 52))
      + getitem (fst (@noise_draws demo_runtime 3 demo_world)) 1.
Proof.
  apply (@sales_formula demo_runtime 3 demo_world 1). lia.
Defined.

(** C4. For every [weeks = n] the run succeeds and TV spend at index [t] is
    the gamma draw of that index plus 5000 exactly when
    [n/3 <= t < n/3 + 10] (indices beyond the sequence do not exist and
    raise nothing); for [n = 156] these are the indices 52 to 61. *)
Theorem campaign_boost_window `{Runtime} (w : world) :
  (forall n, exists df,
     fst (generate_mmm_data (PyInt (Z.of_nat n)) w) = inr df /\
     length (pd.tv_spend df) = n /\
     forall t, (t < n)%nat ->
       getitem (pd.tv_spend df) t =
       getitem (fst (tv_draws n w)) t +
       (if (n / 3 <=? t)%nat && (t <? n / 3 + 10)%nat then 5000 else 0)) /\
  (exists df,
     fst (generate_mmm_data (PyInt 156) w) = inr df /\
     forall t, (t < 156)%nat ->
       getitem (pd.tv_spend df) t =
       getitem (fst (tv_draws 156 w)) t +
       (if (52 <=? t)%nat && (t <=? 61)%nat then 5000 else 0)).
Proof.
  split.
  - intros n. eexists. rewrite generate_mmm_data_run.
    split; [reflexivity|]. simpl pd.tv_spend.
    split; [apply tv_column_length|].
    intros t Ht. rewrite tv_column_cell by exact Ht.
    destruct ((n / 3 <=? t)%nat && (t <? n / 3 + 10)%nat); lra.
  - eexists. change 156%Z with (Z.of_nat 156).
    rewrite generate_mmm_data_run.
    split; [reflexivity|]. simpl pd.tv_spend.
    intros t Ht. rewrite tv_column_cell by exact Ht.
    change (156 / 3)%nat with 52%nat.
    replace (t <? 52 + 10)%nat with (t <=? 61)%nat
      by (destruct (Nat.leb_spec t 61), (Nat.ltb_spec t (52 + 10)); lia).
    destruct ((52 <=? t)%nat && (t <=? 61)%nat); lra.
Qed.

(** C5. Two invocations with the same [weeks] return the same result
    (the same Dataset, or the same exception) and leave the generator in
    the same state, whatever state each one found it in: the seed is the
    constant 42, set first, and nothing else feeds the computation. *)
Theorem generate_mmm_data_deterministic `{Runtime}
    (weeks : py_num) (w1 w2 : world) :
  fst (generate_mmm_data weeks w1) = fst (generate_mmm_data weeks w2) /\
  mt (snd (generate_mmm_data weeks w1)) = mt (snd (generate_mmm_data weeks w2)).
Proof.
  destruct weeks as [n|x].
  - destruct (Z.lt_ge_cases n 0) as [Hneg|Hpos].
    + rewrite !generate_mmm_data_negative by exact Hneg.
      split; reflexivity.
    + rewrite <- (Z2Nat.id n) by exact Hpos.
      rewrite !generate_mmm_data_run. simpl.
      destruct (columns_mt (Z.to_nat n) w1 w2) as (-> & -> & -> & ->).
      split; reflexivity.
  - rewrite !generate_mmm_data_float. split; reflexivity.
Qed.

(** C6 (as amended). A negative [int] and a [float] make the call raise,
    with the generator exactly as the seeding left it (no variate drawn)
    and no Dataset; every nonnegative [int], 0 included, makes it return a
    Dataset whose four columns have [weeks] rows, after [3 * weeks]
    variates. *)
Theorem generate_mmm_data_validation `{Runtime} (w : world) :
  (forall n, (n < 0)%Z ->
     exists e, generate_mmm_data (PyInt n) w =
               (inl e, World _ (seed_state 42) (drawn w))) /\
  (forall x,
     exists e, generate_mmm_data (PyFloat x) w =
               (inl e, World _ (seed_state 42) (drawn w))) /\
  (forall n : nat,
     exists df w',
       generate_mmm_data (PyInt (Z.of_nat n)) w = (inr df, w') /\
       length (pd.week df) = n /\
       length (pd.tv_spend df) = n /\
       length (pd.search_spend df) = n /\
       length (pd.sales df) = n /\
       drawn w' = (drawn w + 3 * n)%nat).
Proof.
  split; [|split].
  - intros n Hn. eexists. apply generate_mmm_data_negative. exact Hn.
  - intros x. eexists. apply generate_mmm_data_float.
  - intros n. do 2 eexists. split; [apply generate_mmm_data_run|]. simpl.
    split; [apply week_column_length|].
    split; [apply tv_column_length|].
    split; [apply search_column_length|].
    split; [apply sales_column_length|].
    unfold noise_draws, search_draws, tv_draws.
    rewrite !draws_drawn. simpl. lia.
Qed.

(** C6, the claim as stated fails: [weeks = 0] does not raise, it returns
    the empty Dataset. *)
Lemma generate_mmm_data_zero_weeks :
  @generate_mmm_data demo_runtime (PyInt 0) demo_world =
  (inr (pd.Frame [] [] [] []), @World demo_runtime 42%nat 0%nat).
Proof. reflexivity. Qed.

(** C7. Provided a standard gamma variate is never negative, every Dataset
    the generator returns has every Search spend value at least 500 and no
    negative TV spend value. *)
Theorem spend_floor `{Runtime} (weeks : py_num) (w : world) (df : pd.frame) :
  (forall s, 0 <= fst (standard_gamma 2 s)) ->
  fst (generate_mmm_data weeks w) = inr df ->
  Forall (fun x => 500 <= x) (pd.search_spend df) /\
  Forall (fun x => 0 <= x) (pd.tv_spend df).
Proof.
  intros Hg Hdf.
  destruct (generate_mmm_data_inr weeks w df Hdf) as (n & _ & ->). simpl.
  split.
  - apply search_column_floor.
  - apply tv_column_nonneg. exact Hg.
Qed.

Lemma spend_floor_witness :
  Forall (fun x => 500 <= x) (@search_column demo_runtime 3 demo_world) /\
  Forall (fun x => 0 <= x) (@tv_column demo_runtime 3 demo_world).
Proof.
  apply (@spend_floor demo_runtime (PyInt 3) demo_world
           (pd.Frame (@week_column 3)
                     (@tv_column demo_runtime 3 demo_world)
                     (@search_column demo_runtime 3 demo_world)
                     (@sales_column demo_runtime 3 demo_world))).
  - intros s. simpl. apply pos_INR.
  - reflexivity.
Defined.

(** C9. For every [weeks = n] the run succeeds and each of the four columns
    has exactly [n] rows; row [t] of the time axis is the Sunday
    2021-01-03 plus [t] weeks, so the rows are in week-ascending order, and
    row [t] of each spend column comes from draw [t] of its own batch. *)
Theorem dataset_shape `{Runtime} (n : nat) (w : world) :
  exists df,
    fst (generate_mmm_data (PyInt (Z.of_nat n)) w) = inr df /\
    length (pd.week df) = n /\
    length (pd.tv_spend df) = n /\
    length (pd.search_spend df) = n /\
    length (pd.sales df) = n /\
    (forall t, (t < n)%nat ->
       nth t (pd.week df) 0%Z = (18630 + 7 * Z.of_nat t)%Z) /\
    (forall i j, (i < j < n)%nat ->
       (nth i (pd.week df) 0 < nth j (pd.week df) 0)%Z) /\
    (forall t, (t < n)%nat ->
       getitem (pd.search_spend df) t =
         Rmax 500 (getitem (fst (search_draws n w)) t) /\
       getitem (pd.tv_spend df) t =
         getitem (fst (tv_draws n w)) t +
         (if (n / 3 <=? t)%nat && (t <? n / 3 + 10)%nat then 5000 else 0)).
Proof.
  eexists. rewrite generate_mmm_data_run.
  split; [reflexivity|].
  cbn [pd.week pd.tv_spend pd.search_spend pd.sales].
  split; [apply week_column_length|].
  split; [apply tv_column_length|].
  split; [apply search_column_length|].
  split; [apply sales_column_length|].
  split; [intros t Ht; apply week_column_cell; exact Ht|].
  split.
  - intros i j Hij. rewrite !week_column_cell by lia. lia.
  - intros t Ht. split; [apply search_column_cell; exact Ht|].
    rewrite tv_column_cell by exact Ht.
    destruct ((n / 3 <=? t)%nat && (t <? n / 3 + 10)%nat); lra.
Qed.

(** C10. For a spend sequence with no negative element and a decay
    parameter in [0, 1), no element of the adstock output is negative, so
    for [K > 0] every divisor [input[t] + K] of the saturation that follows
    is positive; in particular, when gamma variates are never negative,
    the divisors of both channels of a returned Dataset (K = 3000 on TV
    with decay 0.6, K = 500 on Search with decay 0.1) are positive. *)
Theorem saturation_divisor_positive `{Runtime}
    (spend : ndarray) (alpha K : R) :
  Forall (fun x => 0 <= x) spend ->
  0 <= alpha < 1 ->
  0 < K ->
  Forall (fun x => 0 <= x) (apply_adstock spend alpha) /\
  Forall (fun d => 0 < d) (np.adds (apply_adstock spend alpha) K) /\
  ((forall s, 0 <= fst (standard_gamma 2 s)) ->
   forall weeks w df,
     fst (generate_mmm_data weeks w) = inr df ->
     Forall (fun d => 0 < d) (np.adds (apply_adstock (pd.tv_spend df) 0.6) 3000) /\
     Forall (fun d => 0 < d)
            (np.adds (apply_adstock (pd.search_spend df) 0.1) 500)).
Proof.
  assert (Hnn : forall s a, Forall (fun x => 0 <= x) s -> 0 <= a ->
                  Forall (fun x => 0 <= x) (apply_adstock s a)).
  { intros s a Hs Ha. apply Forall_getitem. intros t _.
    apply apply_adstock_nonneg_cell; assumption. }
  assert (Hdiv : forall s a k, Forall (fun x => 0 <= x) s -> 0 <= a -> 0 < k ->
                  Forall (fun d => 0 < d) (np.adds (apply_adstock s a) k)).
  { intros s a k Hs Ha Hk. unfold np.adds. apply List.Forall_map.
    eapply List.Forall_impl; [|apply Hnn; eassumption].
    simpl. intros x Hx. lra. }
  intros Hs Ha HK. split; [apply Hnn; [exact Hs|lra]|].
  split; [apply Hdiv; [exact Hs|lra|exact HK]|].
  intros Hg weeks w df Hdf.
  destruct (generate_mmm_data_inr weeks w df Hdf) as (n & _ & ->). simpl.
  pose proof (search_column_floor n w) as Hse.
  pose proof (tv_column_nonneg n w Hg) as Htv.
  split.
  - apply Hdiv; [exact Htv|lra|lra].
  - apply Hdiv; [|lra|lra].
    eapply List.Forall_impl; [|exact Hse]. simpl. intros x Hx. lra.
Qed.

Lemma saturation_divisor_positive_witness :
  Forall (fun x => 0 <= x) (apply_adstock [100; 50] 0.6) /\
  Forall (fun d => 0 < d) (np.adds (apply_adstock [100; 50] 0.6) 3000) /\
  Forall (fun d => 0 < d)
         (np.adds (apply_adstock (@tv_column demo_runtime 3 demo_world) 0.6)
                  3000) /\
  Forall (fun d => 0 < d)
         (np.adds (apply_adstock (@search_column demo_runtime 3 demo_world) 0.1)
                  500).
Proof.
  destruct (@saturation_divisor_positive demo_runtime [100; 50] 0.6 3000)
    as (Hout & Hdiv & Hrun).
  - repeat constructor; lra.
  - lra.
  - lra.
  - split; [exact Hout|]. split; [exact Hdiv|].
    apply (Hrun (fun s => pos_INR s) (PyInt 3) demo_world
             (pd.Frame (@week_column 3)
                       (@tv_column demo_runtime 3 demo_world)
                       (@search_column demo_runtime 3 demo_world)
                       (@sales_column demo_runtime 3 demo_world))).
    reflexivity.
Defined.

(** * Further properties of the transforms *)

(** ** Helper lemmas *)

(** An array that obeys the recurrence of the loop is its result. *)
Lemma apply_adstock_unique (spend : ndarray) (alpha : R) (b : ndarray) :
  length b = length spend ->
  getitem b 0 = 0 ->
  (forall t, (1 <= t < length spend)%nat ->
     getitem b t = getitem spend t + alpha * getitem b (t - 1)) ->
  b = apply_adstock spend alpha.
Proof.
  intros Hlen H0 Hrec.
  apply (nth_ext _ _ 0 0); [rewrite apply_adstock_length; exact Hlen|].
  intros i Hi. rewrite Hlen in Hi.
  change (getitem b i = getitem (apply_adstock spend alpha) i).
  induction i as [|i IH].
  - rewrite apply_adstock_first. exact H0.
  - rewrite Hrec, apply_adstock_rec by lia.
    replace (S i - 1)%nat with i by lia.
    rewrite IH by lia. reflexivity.
Qed.

Lemma adstock_carry_length alpha prev rest :
  length (adstock_carry alpha prev rest) = length rest.
Proof.
  revert prev. induction rest as [|x rest IH]; intros prev; simpl;
    [reflexivity|]. f_equal. apply IH.
Qed.

Lemma adstock_carry_cell alpha prev rest i :
  (i < length rest)%nat ->
  getitem (adstock_carry alpha prev rest) i =
  getitem rest i +
  alpha * match i with
          | O => prev
          | S j => getitem (adstock_carry alpha prev rest) j
          end.
Proof.
  revert prev i. induction rest as [|x rest IH]; intros prev i Hi;
    simpl in Hi; [lia|].
  destruct i as [|i]; [reflexivity|].
  change (getitem (adstock_carry alpha (x + alpha * prev) rest) i =
          getitem rest i +
          alpha * getitem ((x + alpha * prev)
                             :: adstock_carry alpha (x + alpha * prev) rest) i).
  rewrite (IH (x + alpha * prev) i) by lia.
  destruct i; reflexivity.
Qed.

Lemma apply_adstock_scan (spend : ndarray) (alpha : R) :
  apply_adstock spend alpha = adstock_scan spend alpha.
Proof.
  symmetry. apply apply_adstock_unique.
  - destruct spend as [|x rest]; simpl; [reflexivity|].
    f_equal. apply adstock_carry_length.
  - destruct spend; reflexivity.
  - intros t Ht. destruct spend as [|x rest]; simpl in Ht; [lia|].
    destruct t as [|t]; [lia|].
    replace (S t - 1)%nat with t by lia.
    change (getitem (adstock_carry alpha 0 rest) t =
            getitem rest t + alpha * getitem (0 :: adstock_carry alpha 0 rest) t).
    rewrite adstock_carry_cell by lia.
    destruct t; reflexivity.
Qed.

Lemma adstock_carry_take alpha prev rest k :
  take k (adstock_carry alpha prev rest) =
  adstock_carry alpha prev (take k rest).
Proof.
  revert prev rest. induction k as [|k IH]; intros prev rest.
  - reflexivity.
  - destruct rest as [|x rest]; simpl; [reflexivity|].
    f_equal. apply IH.
Qed.

Lemma adstock_carry_zero prev rest : adstock_carry 0 prev rest = rest.
Proof.
  revert prev. induction rest as [|x rest IH]; intros prev; simpl;
    [reflexivity|].
  rewrite IH. f_equal. lra.
Qed.


(** ** Adstock Transform, further *)

(** X1. The spend of the first week plays no part in the result: two spend
    sequences that differ in their first element only have the same
    adstock. *)
Theorem apply_adstock_ignores_first_week (x y : R) (rest : ndarray) (alpha : R) :
  apply_adstock (x :: rest) alpha = apply_adstock (y :: rest) alpha.
Proof. rewrite !apply_adstock_scan. reflexivity. Qed.

(** X2. The in-place loop computes what one left-to-right pass with a
    running carry computes: nothing for an empty input, otherwise a zero
    followed by the carried recurrence over the remaining weeks, started
    from a carry of zero. *)
Theorem apply_adstock_one_pass (alpha : R) :
  apply_adstock [] alpha = [] /\
  forall x rest,
    apply_adstock (x :: rest) alpha = 0 :: adstock_carry alpha 0 rest.
Proof.
  split; [reflexivity|].
  intros x rest. rewrite apply_adstock_scan. reflexivity.
Qed.

(** X5. The transform is causal: the adstock of the first [k] weeks is the
    first [k] weeks of the adstock, whatever the later spends are. *)
Theorem apply_adstock_prefix (spend : ndarray) (alpha : R) (k : nat) :
  apply_adstock (take k spend) alpha = take k (apply_adstock spend alpha).
Proof.
  rewrite !apply_adstock_scan.
  destruct k as [|k]; [destruct spend; reflexivity|].
  destruct spend as [|x rest]; [reflexivity|]. simpl.
  f_equal. symmetry. apply adstock_carry_take.
Qed.

(** X6. For a spend sequence with no negative element and a decay
    parameter that is not negative, the adstock of every week [t >= 1] is
    at least the spend of that week. *)
Theorem apply_adstock_at_least_spend (spend : ndarray) (alpha : R) (t : nat) :
  Forall (fun x => 0 <= x) spend ->
  0 <= alpha ->
  (1 <= t < length spend)%nat ->
  getitem spend t <= getitem (apply_adstock spend alpha) t.
Proof.
  intros Hs Ha Ht.
  rewrite apply_adstock_rec by exact Ht.
  assert (0 <= alpha * getitem (apply_adstock spend alpha) (t - 1))
    by (apply Rmult_le_pos; [exact Ha|];
        apply apply_adstock_nonneg_cell; assumption).
  lra.
Qed.

Lemma apply_adstock_at_least_spend_witness :
  getitem [100; 50; 20] 2 <= getitem (apply_adstock [100; 50; 20] 0.5) 2.
Proof.
  apply (apply_adstock_at_least_spend [100; 50; 20] 0.5 2).
  - repeat constructor; lra.
  - lra.
  - simpl. lia.
Defined.

(** X7. With a decay parameter of 0 nothing is carried over: the result is
    the spend itself with its first element replaced by 0. *)
Theorem apply_adstock_no_memory (x : R) (rest : ndarray) :
  apply_adstock (x :: rest) 0 = 0 :: rest.
Proof.
  rewrite apply_adstock_scan. simpl. f_equal. apply adstock_carry_zero.
Qed.

(** ** Helper lemmas on the effects and on sums *)

Lemma hill_half x K : 0 < K -> K <= x -> 0.5 <= x / (x + K).
Proof.
  intros HK Hx.
  apply (Rmult_le_reg_r (x + K)); [lra|].
  unfold Rdiv. rewrite Rmult_assoc, Rinv_l by lra. lra.
Qed.

Lemma saturation_adstock_cell (spend : ndarray) (alpha K : R) (t : nat) :
  (t < length spend)%nat ->
  getitem (apply_saturation (apply_adstock spend alpha) K) t =
  getitem (apply_adstock spend alpha) t /
  (getitem (apply_adstock spend alpha) t + K).
Proof.
  intros Ht. apply apply_saturation_cell.
  rewrite apply_adstock_length. exact Ht.
Qed.

Lemma saturation_adstock_unit (spend : ndarray) (alpha K : R) :
  Forall (fun x => 0 <= x) spend -> 0 <= alpha -> 0 < K ->
  Forall (fun y => 0 <= y < 1) (apply_saturation (apply_adstock spend alpha) K).
Proof.
  intros Hs Ha HK. rewrite apply_saturation_map. apply List.Forall_map.
  apply Forall_getitem. intros t _.
  apply hill_bounds; [|exact HK].
  apply apply_adstock_nonneg_cell; assumption.
Qed.



Section GeneratorEffects.
Context `{Runtime}.

Lemma search_adstock_floor n w t :
  (1 <= t < n)%nat ->
  500 <= getitem (apply_adstock (search_column n w) 0.1) t.
Proof.
  intros Ht.
  pose proof (search_column_floor n w) as Hfl.
  pose proof (search_column_length n w) as Hlen.
  rewrite apply_adstock_rec by lia.
  assert (Hx : 500 <= getitem (search_column n w) t)
    by (apply (proj1 (Forall_getitem _ _) Hfl); lia).
  assert (0 <= getitem (apply_adstock (search_column n w) 0.1) (t - 1)).
  { apply apply_adstock_nonneg_cell; [|lra].
    eapply List.Forall_impl; [|exact Hfl]. simpl. intros x Hx'. lra. }
  lra.
Qed.

Lemma effect_first_cell (spend : ndarray) (alpha K : R) :
  (0 < length spend)%nat ->
  getitem (apply_saturation (apply_adstock spend alpha) K) 0 = 0.
Proof.
  intros Hn. rewrite saturation_adstock_cell by exact Hn.
  rewrite apply_adstock_first. unfold Rdiv. ring.
Qed.

End GeneratorEffects.

(** ** Generator, further *)

(** X9. Provided a standard gamma variate is never negative, both Effect
    Sequences of every Dataset the generator returns (saturation of adstock
    of the TV and of the Search column) lie in [0, 1). *)
Theorem effect_sequences_unit_interval `{Runtime}
    (weeks : py_num) (w : world) (df : pd.frame) :
  (forall s, 0 <= fst (standard_gamma 2 s)) ->
  fst (generate_mmm_data weeks w) = inr df ->
  Forall (fun y => 0 <= y < 1) (effect_tv (pd.tv_spend df)) /\
  Forall (fun y => 0 <= y < 1) (effect_search (pd.search_spend df)).
Proof.
  intros Hg Hdf.
  destruct (generate_mmm_data_inr weeks w df Hdf) as (n & _ & ->). simpl.
  split.
  - apply saturation_adstock_unit; [|lra|lra].
    apply tv_column_nonneg. exact Hg.
  - apply saturation_adstock_unit; [|lra|lra].
    eapply List.Forall_impl; [|apply search_column_floor].
    simpl. intros x Hx. lra.
Qed.

Lemma effect_sequences_unit_interval_witness :
  Forall (fun y => 0 <= y < 1)
         (effect_tv (@tv_column demo_runtime 3 demo_world)) /\
  Forall (fun y => 0 <= y < 1)
         (effect_search (@search_column demo_runtime 3 demo_world)).
Proof.
  apply (@effect_sequences_unit_interval demo_runtime (PyInt 3) demo_world
           (pd.Frame (@week_column 3)
                     (@tv_column demo_runtime 3 demo_world)
                     (@search_column demo_runtime 3 demo_world)
                     (@sales_column demo_runtime 3 demo_world))).
  - intros s. simpl. apply pos_INR.
  - reflexivity.
Defined.

(** X10. From the second week on the Search channel is at least half
    saturated: the floor of 500 on Search spend equals its half-saturation
    constant, so the Search effect of every week [t >= 1] lies in
    [0.5, 1). *)
Theorem search_effect_half_saturated `{Runtime} (n : nat) (w : world) (t : nat) :
  (1 <= t < n)%nat ->
  exists df,
    fst (generate_mmm_data (PyInt (Z.of_nat n)) w) = inr df /\
    0.5 <= getitem (effect_search (pd.search_spend df)) t < 1.
Proof.
  intros Ht. eexists. rewrite generate_mmm_data_run.
  split; [reflexivity|]. simpl. unfold effect_search.
  rewrite saturation_adstock_cell by (rewrite search_column_length; lia).
  pose proof (search_adstock_floor n w t Ht) as Hfl.
  split.
  - apply hill_half; lra.
  - apply hill_bounds; lra.
Qed.

Lemma search_effect_half_saturated_witness :
  exists df,
    fst (@generate_mmm_data demo_runtime (PyInt 3) demo_world) = inr df /\
    0.5 <= getitem (effect_search (pd.search_spend df)) 2 < 1.
Proof.
  apply (@search_effect_half_saturated demo_runtime 3 demo_world 2). lia.
Defined.

(** X11. The first row carries no media effect and no seasonal lift: for
    every [weeks >= 1] the sales of week 0 are the baseline 10000 plus the
    first noise draw, whatever was spent. *)
Theorem first_week_sales `{Runtime} (n : nat) (w : world) :
  (0 < n)%nat ->
  exists df,
    fst (generate_mmm_data (PyInt (Z.of_nat n)) w) = inr df /\
    getitem (pd.sales df) 0 = 10000 + getitem (fst (noise_draws n w)) 0.
Proof.
  intros Hn. eexists. rewrite generate_mmm_data_run.
  split; [reflexivity|]. simpl.
  rewrite sales_column_cell by exact Hn.
  unfold effect_tv, effect_search.
  rewrite !effect_first_cell
    by (rewrite ?tv_column_length, ?search_column_length; exact Hn).
  replace (2 * PI * INR 0 / 52) with 0 by (simpl; lra).
  rewrite sin_0. lra.
Qed.

Lemma first_week_sales_witness :
  exists df,
    fst (@generate_mmm_data demo_runtime (PyInt 3) demo_world) = inr df /\
    getitem (pd.sales df) 0 =
    10000 + getitem (fst (@noise_draws demo_runtime 3 demo_world)) 0.
Proof.
  apply (@first_week_sales demo_runtime 3 demo_world). lia.
Defined.

(** X12. The seasonality multiplier of every week lies between 0.8 and
    1.2, and the one of week 0 is 1. *)
Theorem seasonality_range (n t : nat) :
  (t < n)%nat ->
  0.8 <= getitem (seasonality n) t <= 1.2 /\
  getitem (seasonality n) 0 = 1.
Proof.
  intros Ht. split.
  - rewrite seasonality_cell by exact Ht.
    pose proof (SIN_bound (2 * PI * INR t / 52)). lra.
  - rewrite seasonality_cell by lia.
    replace (2 * PI * INR 0 / 52) with 0 by (simpl; lra).
    rewrite sin_0. lra.
Qed.

Lemma seasonality_range_witness :
  0.8 <= getitem (seasonality 156) 13 <= 1.2 /\
  getitem (seasonality 156) 0 = 1.
Proof.
  apply (seasonality_range 156 13). lia.
Defined.

(** X13. Provided a standard gamma variate is never negative, the sales of
    every week before noise (sales minus the noise draw of that week) lie
    in [8000, 49200). *)
Theorem sales_before_noise_bounds `{Runtime} (n : nat) (w : world) (t : nat) :
  (forall s, 0 <= fst (standard_gamma 2 s)) ->
  (t < n)%nat ->
  exists df,
    fst (generate_mmm_data (PyInt (Z.of_nat n)) w) = inr df /\
    8000 <= getitem (pd.sales df) t - getitem (fst (noise_draws n w)) t
         < 49200.
Proof.
  intros Hg Ht. eexists. rewrite generate_mmm_data_run.
  split; [reflexivity|]. simpl.
  rewrite sales_column_cell by exact Ht.
  assert (Htv : 0 <= getitem (effect_tv (tv_column n w)) t < 1).
  { assert (HF : Forall (fun y => 0 <= y < 1) (effect_tv (tv_column n w)))
      by (apply saturation_adstock_unit;
          [apply tv_column_nonneg; exact Hg|lra|lra]).
    apply (proj1 (Forall_getitem _ _) HF).
    rewrite effect_tv_length, tv_column_length. exact Ht. }
  assert (Hse : 0 <= getitem (effect_search (search_column n w)) t < 1).
  { assert (HF : Forall (fun y => 0 <= y < 1)
                        (effect_search (search_column n w))).
    { apply saturation_adstock_unit; [|lra|lra].
      eapply List.Forall_impl; [|apply search_column_floor].
      simpl. intros x Hx. lra. }
    apply (proj1 (Forall_getitem _ _) HF).
    rewrite effect_search_length, search_column_length. exact Ht. }
  pose proof (SIN_bound (2 * PI * INR t / 52)) as Hsin.
  set (e1 := getitem (effect_tv (tv_column n w)) t) in *.
  set (e2 := getitem (effect_search (search_column n w)) t) in *.
  set (sn := sin (2 * PI * INR t / 52)) in *.
  set (base := 10000 + 0.5 * 50000 * e1 + 0.3 * 20000 * e2).
  assert (Hb : 10000 <= base < 41000) by (unfold base; lra).
  assert (Hs : 0.8 <= 1 + 0.2 * sn <= 1.2) by lra.
  assert (H1 : 0 <= (base - 10000) * (1 + 0.2 * sn))
    by (apply Rmult_le_pos; lra).
  assert (H2 : 0 < (41000 - base) * (1 + 0.2 * sn))
    by (apply Rmult_lt_0_compat; lra).
  lra.
Qed.

Lemma sales_before_noise_bounds_witness :
  exists df,
    fst (@generate_mmm_data demo_runtime (PyInt 3) demo_world) = inr df /\
    8000 <= getitem (pd.sales df) 1
            - getitem (fst (@noise_draws demo_runtime 3 demo_world)) 1
         < 49200.
Proof.
  apply (@sales_before_noise_bounds demo_runtime 3 demo_world 1).
  - intros s. simpl. apply pos_INR.
  - lia.
Defined.


(** ** The script *)

Section Script.
Context `{Runtime}.

Lemma script_table_eq (w1 w2 : world) : script_table w1 = script_table w2.
Proof.
  unfold script_table.
  destruct (columns_mt 156 w1 w2) as (-> & -> & -> & _). reflexivity.
Qed.

Lemma generate_mmm_data_default (w : world) :
  generate_mmm_data (PyInt 156) w = (inr (script_table w), snd (noise_draws 156 w)).
Proof. exact (generate_mmm_data_run 156 w). Qed.

(** With [data] absent or a directory and the target not a directory, the
    script reaches its closing statements with the table written. *)
Lemma main_ok (env : terminal) (w : world) (fs : gmap string node) :
  (forall c, fs !! data_dir <> Some (File c)) ->
  fs !! csv_path <> Some Dir ->
  main env w fs =
  (closing env,
   <[csv_path := File (script_table w)]> (<[data_dir := Dir]> fs),
   snd (noise_draws 156 w)).
Proof.
  intros Hdir Hcsv.
  assert (Hne : data_dir <> csv_path) by discriminate.
  unfold main, closing, os.path_exists, os.makedirs.
  destruct (fs !! data_dir) as [[|c]|] eqn:Ed.
  - rewrite generate_mmm_data_default. unfold to_csv. rewrite Ed.
    rewrite (insert_id fs data_dir Dir Ed).
    destruct (fs !! csv_path) as [[|c]|] eqn:Ec;
      [exfalso; apply Hcsv; reflexivity| |];
      destruct (print_message env); reflexivity.
  - exfalso. apply (Hdir c). reflexivity.
  - rewrite generate_mmm_data_default. unfold to_csv.
    rewrite lookup_insert_eq, lookup_insert_ne by exact Hne.
    destruct (fs !! csv_path) as [[|c]|] eqn:Ec;
      [exfalso; apply Hcsv; reflexivity| |];
      destruct (print_message env); reflexivity.
Qed.

End Script.

(** X15. When [data] is absent or a directory and the CSV path is not a
    directory, the script gets as far as its closing statements: whatever
    [print] and the plot then do, [data] is a directory, the CSV path holds
    the 156-row table of [generate_mmm_data()] and every other path is as
    it was; the script ends without an exception exactly when neither
    [print] nor the plot raises, and otherwise in the exception of the
    first of them that does. *)
Theorem script_writes_table `{Runtime}
    (env : terminal) (w : world) (fs : gmap string node) :
  (forall c, fs !! data_dir <> Some (File c)) ->
  fs !! csv_path <> Some Dir ->
  exists r fs' w',
    main env w fs = (r, fs', w') /\
    fs' !! data_dir = Some Dir /\
    fs' !! csv_path = Some (File (script_table w)) /\
    fst (generate_mmm_data (PyInt 156) w) = inr (script_table w) /\
    length (pd.week (script_table w)) = 156%nat /\
    (forall p, p <> data_dir -> p <> csv_path -> fs' !! p = fs !! p) /\
    r = match print_message env with
        | Some e => Some e
        | None => show_plot env
        end /\
    (r = None <-> print_message env = None /\ show_plot env = None).
Proof.
  intros Hdir Hcsv. do 3 eexists.
  split; [apply main_ok; assumption|].
  assert (Hne : data_dir <> csv_path) by discriminate.
  split; [rewrite lookup_insert_ne, lookup_insert_eq by congruence;
          reflexivity|].
  split; [rewrite lookup_insert_eq; reflexivity|].
  split; [rewrite generate_mmm_data_default; reflexivity|].
  split; [apply week_column_length|].
  split; [intros p Hp1 Hp2; rewrite !lookup_insert_ne by congruence;
          reflexivity|].
  split; [reflexivity|].
  unfold closing. destruct (print_message env) as [e|].
  - split; [discriminate|]. intros [Hp _]. discriminate.
  - split; [intros Hs; split; [reflexivity|exact Hs]|].
    intros [_ Hs]. exact Hs.
Qed.

Lemma script_writes_table_witness :
  exists r fs' w',
    @main demo_runtime (Terminal (Some (Raised ValueError)) None)
          demo_world ∅ = (r, fs', w') /\
    fs' !! data_dir = Some Dir /\
    fs' !! csv_path = Some (File (@script_table demo_runtime demo_world)) /\
    fst (@generate_mmm_data demo_runtime (PyInt 156) demo_world) =
      inr (@script_table demo_runtime demo_world) /\
    length (pd.week (@script_table demo_runtime demo_world)) = 156%nat /\
    (forall p, p <> data_dir -> p <> csv_path ->
       fs' !! p = (∅ : gmap string node) !! p) /\
    r = Some (Raised ValueError) /\
    (r = None <-> Some (Raised ValueError) = None /\ @None script_exn = None).
Proof.
  apply (@script_writes_table demo_runtime
           (Terminal (Some (Raised ValueError)) None) demo_world ∅).
  - intros c. rewrite lookup_empty. discriminate.
  - rewrite lookup_empty. discriminate.
Defined.

(** X16. The guard tests existence, not kind: when [data] is a regular
    file the directory is not created, the table is still generated (all
    468 variates are drawn) and the script then ends in an [OSError] at
    [to_csv], leaving the files as they were. *)
Theorem script_blocked_by_file `{Runtime}
    (env : terminal) (w : world) (fs : gmap string node) (c : pd.frame) :
  fs !! data_dir = Some (File c) ->
  main env w fs = (Some OSError, fs, snd (noise_draws 156 w)) /\
  drawn (snd (noise_draws 156 w)) = (drawn w + 468)%nat.
Proof.
  intros Hd. split.
  - unfold main, os.path_exists. rewrite Hd.
    rewrite generate_mmm_data_default. unfold to_csv. rewrite Hd.
    reflexivity.
  - unfold noise_draws, search_draws, tv_draws.
    rewrite !draws_drawn. simpl. lia.
Qed.

Lemma script_blocked_by_file_witness :
  @main demo_runtime (Terminal None None) demo_world
        {[ data_dir := File (pd.Frame [] [] [] []) ]} =
    (Some OSError, {[ data_dir := File (pd.Frame [] [] [] []) ]},
     snd (@noise_draws demo_runtime 156 demo_world)) /\
  drawn (snd (@noise_draws demo_runtime 156 demo_world)) =
    (drawn demo_world + 468)%nat.
Proof.
  apply (@script_blocked_by_file demo_runtime (Terminal None None) demo_world
           {[ data_dir := File (pd.Frame [] [] [] []) ]}
           (pd.Frame [] [] [] [])).
  apply lookup_singleton_eq.
Defined.

(** X17. Running the script again changes nothing on disk: once a run has
    written the table, a second run, from whatever state the generator is
    in and whatever [print] and the plot do in either run, leaves exactly
    the files the first run left. *)
Theorem script_rerun `{Runtime}
    (env env2 : terminal) (w w2 : world) (fs : gmap string node) :
  (forall c, fs !! data_dir <> Some (File c)) ->
  fs !! csv_path <> Some Dir ->
  exists r fs' w',
    main env w fs = (r, fs', w') /\
    main env2 w2 fs' =
      (match print_message env2 with
       | Some e => Some e
       | None => show_plot env2
       end, fs', snd (noise_draws 156 w2)).
Proof.
  intros Hdir Hcsv. do 3 eexists.
  split; [apply main_ok; assumption|].
  assert (Hne : data_dir <> csv_path) by discriminate.
  rewrite main_ok.
  - rewrite (script_table_eq w2 w).
    rewrite (insert_id _ data_dir Dir)
      by (rewrite lookup_insert_ne, lookup_insert_eq by congruence;
          reflexivity).
    rewrite insert_insert_eq. reflexivity.
  - intros c. rewrite lookup_insert_ne, lookup_insert_eq by congruence.
    discriminate.
  - rewrite lookup_insert_eq. discriminate.
Qed.

Lemma script_rerun_witness :
  exists r fs' w',
    @main demo_runtime (Terminal (Some (Raised ValueError)) None)
          demo_world ∅ = (r, fs', w') /\
    @main demo_runtime (Terminal None None) demo_world fs' =
      (None, fs', snd (@noise_draws demo_runtime 156 demo_world)).
Proof.
  apply (@script_rerun demo_runtime
           (Terminal (Some (Raised ValueError)) None) (Terminal None None)
           demo_world demo_world ∅).
  - intros c. rewrite lookup_empty. discriminate.
  - rewrite lookup_empty. discriminate.
Defined.
